(** * infinidash: an Ansible module that creates and deletes "Dashes"

    Shallow embedding of [plugins/modules/infinidash.py] and the properties
    of its three functions [create_dash], [remove_dash] and [main].

    The module is a script around three parties that are not part of the
    repository:
    - the Ansible framework ([AnsibleAWSModule]). Its validation of the task
      arguments is written out by its rules (undeclared names, exclusive
      groups, defaults, required arguments, types, choices) over the
      [argument_spec] and [mutually_exclusive] that [main] passes; the
      coercion of a value to a declared type is a parameter. Its calls
      [exit_json], [fail_json] and [fail_json_aws] end the run. [exit_json]
      is declared with keyword arguments only, so a call that hands it a
      positional argument raises [TypeError] before it is entered, and so
      does a call of [fail_json] that binds a name twice. The connection
      options it adds to every AWS module (region, credentials) only serve
      to build the client and are left out;
    - the SDK client ([describe_dashes], [create_dash], [delete_dash]), a
      parameter: each operation returns a value or raises;
    - the host ([json.loads], [open] and [json.load]), a parameter too.

    A run is the list of remote calls made, with their answers, and the way
    the run ended.

    Line 146 of the source lacks the closing parenthesis of the call to
    [fail_json_aws]; the embedding reads that statement as closed at the end
    of its line, which gives [remove_dash] the three statements its layout
    shows. *)

From stdpp Require Import gmap strings list fin_maps.

Local Open Scope string_scope.
Local Open Scope list_scope.
Local Open Scope stdpp_scope.

#[local] Set Warnings "-register-all".

(** ** Python values *)

(** The values that task arguments, configuration documents and SDK
    responses are made of. *)
Inductive value : Type :=
| VNone
| VBool (b : bool)
| VInt (n : Z)
| VStr (s : string)
| VList (l : list value)
| VDict (d : list (string * value)).

(** [bool(v)]: what [if v:] tests. *)
Definition truthy (v : value) : bool :=
  match v with
  | VNone => false
  | VBool b => b
  | VInt n => negb (n =? 0)%Z
  | VStr s => negb (String.eqb s "")
  | VList l => match l with [] => false | _ :: _ => true end
  | VDict d => match d with [] => false | _ :: _ => true end
  end.

(** [v == s] for a string literal [s]. *)
Definition eq_str (v : value) (s : string) : bool :=
  match v with
  | VStr s' => String.eqb s' s
  | _ => false
  end.

(** [type(v).__name__] *)
Definition type_name (v : value) : string :=
  match v with
  | VNone => "NoneType"
  | VBool _ => "bool"
  | VInt _ => "int"
  | VStr _ => "str"
  | VList _ => "list"
  | VDict _ => "dict"
  end.

(** [module.params.get(key)]: the value under [key], [None] when the
    dictionary has no such key. *)
Definition params_get (params : gmap string value) (key : string) : value :=
  default VNone (params !! key).

(** ** Exceptions *)

Inductive exc_class : Type :=
| TypeError
| ValueError
| JSONDecodeError
| OSError
| AttributeError
| UnboundLocalError
| BotoCoreError
| ClientError
| OtherException (name : string).

(** An exception object: its class, [str(e)], and the attribute
    [e.response] when the object has one. *)
Record exception : Type := Exception {
  exc_class_of : exc_class;
  exc_str : string;
  exc_response : option value
}.

(** [issubclass(c, base)] on the classes above: [JSONDecodeError] derives
    from [ValueError]. *)
Definition issubclass (c base : exc_class) : bool :=
  match c, base with
  | TypeError, TypeError => true
  | ValueError, ValueError => true
  | JSONDecodeError, JSONDecodeError => true
  | JSONDecodeError, ValueError => true
  | OSError, OSError => true
  | AttributeError, AttributeError => true
  | UnboundLocalError, UnboundLocalError => true
  | BotoCoreError, BotoCoreError => true
  | ClientError, ClientError => true
  | OtherException n, OtherException m => String.eqb n m
  | _, _ => false
  end.

(** What [except (BotoCoreError, ClientError)] catches. *)
Definition is_sdk_error (e : exception) : bool :=
  issubclass (exc_class_of e) BotoCoreError || issubclass (exc_class_of e) ClientError.

(** ** Remote calls, outcomes and the execution monad *)

(** The three SDK operations with their keyword arguments
    ([aws_retry=True] is passed to each and hands retrying to the SDK's
    decorator). *)
Inductive call : Type :=
| DescribeDashes (DashIds : value)
| CreateDash (DashName DashConfig : value)
| DeleteDash (DashId : value).

(** A remote call together with what it returned or raised. *)
Definition event : Type := call * (exception + value).

(** The text handed to [msg=]: a literal, or [template.format(arg)]. *)
Inductive message : Type :=
| Literal (text : string)
| Format (template : string) (arg : value).

Inductive validation_error : Type :=
| Unsupported (names : list string)
| MutuallyExclusive (group : list string)
| MissingRequired (names : list string)
| BadType (name : string)
| BadChoice (name : string).

(** How a run ends. The framework calls [exit_json], [fail_json] and
    [fail_json_aws] end the process; each is recorded with the arguments it
    was entered with. [exc] in [FailJson] is the exception whose traceback
    [traceback.format_exc()] renders; [e] in [FailJsonAws] is the exception
    object handed over, which carries its message and traceback. *)
Inductive outcome : Type :=
| InvalidArguments (errors : list validation_error)
| ExitJson (kwargs : list (string * value))
| FailJson (msg : string) (exc : exception) (extra : list (string * value))
| FailJsonAws (e : exception) (msg : message)
| Uncaught (c : exc_class).

(** A computation lists the remote calls it made and either has ended the
    run or carries on with a value. *)
Definition M (A : Type) : Type := list event * (outcome + A).

Definition ret {A} (a : A) : M A := ([], inr a).

Definition bind {A B} (m : M A) (k : A -> M B) : M B :=
  match m with
  | (t, inl o) => (t, inl o)
  | (t, inr a) => let '(t', r) := k a in (t ++ t', r)
  end.

Definition stop {A} (o : outcome) : M A := ([], inl o).

Notation "x <- m ;; k" := (bind m (fun x => k))
  (at level 100, m at next level, k at level 200, right associativity).

Definition trace {A} (m : M A) : list event := fst m.

(** The calls of a trace, in order. *)
Definition calls (t : list event) : list call := map fst t.

Definition is_create (c : call) : bool :=
  match c with CreateDash _ _ => true | _ => false end.
Definition is_describe (c : call) : bool :=
  match c with DescribeDashes _ => true | _ => false end.

(** ** The parties outside the repository *)

(** The SDK client returned by [module.client('dash', ...)]. *)
Record Client : Type := {
  client_describe_dashes : value -> exception + value;
  client_create_dash : value -> value -> exception + value;
  client_delete_dash : value -> exception + value
}.

Inductive arg_type : Type := TStr | TJson | TPath | TDict | TBool | TInt.

(** The framework: the coercion of an argument to its declared type
    ([None] when the value cannot be coerced) and the key conversion used
    on error responses, given on the items of a dictionary. *)
Record Framework : Type := {
  check_type : arg_type -> value -> option value;
  camel_dict_to_snake_dict : list (string * value) -> list (string * value)
}.

(** The host: the JSON decoder on text (the document, or the message of
    the [JSONDecodeError]), and [open(path, 'r')] followed by [json.load]. *)
Record Host : Type := {
  json_decode : string -> string + value;
  load_json_file : value -> exception + value
}.

(** The names that the call [module.fail_json(msg=..., exception=...,
    **extra)] binds before [extra] is spread: the receiver of the bound
    method and the two keywords written out. *)
Definition bound_names : list string := ["self"; "msg"; "exception"].

(** Some key of [extra] is bound already. *)
Definition binds_twice (extra : list (string * value)) : bool :=
  existsb (λ kv, bool_decide (kv.1 ∈ bound_names)) extra.

(** One entry of [argument_spec]. *)
Record option_spec : Type := {
  opt_required : bool;
  opt_type : arg_type;
  opt_default : option value;
  opt_choices : option (list string)
}.

Definition is_none (v : value) : bool :=
  match v with VNone => true | _ => false end.

(** [v in choices], the choices being strings. *)
Definition in_choices (choices : list string) (v : value) : bool :=
  match v with
  | VStr s => bool_decide (s ∈ choices)
  | _ => false
  end.

Section Validation.
Context (fw : Framework).
Context (spec : list (string * option_spec)) (groups : list (list string)).

Definition spec_keys : list string := map fst spec.

(** Supplied arguments the specification does not declare (a set for the
    framework: the order of the names carries no meaning). *)
Definition unsupported_parameters (args : gmap string value) : list string :=
  filter (λ k, k ∉ spec_keys) (map fst (map_to_list args)).

(** A group fails when more than one of its names is supplied. *)
Definition check_mutually_exclusive (args : gmap string value) : list validation_error :=
  flat_map (λ g, if bool_decide (1 < length (filter (λ k, is_Some (args !! k)) g))
                 then [MutuallyExclusive g] else []) groups.

(** Arguments that are not supplied take their default, when they have one. *)
Definition set_defaults (p : gmap string value) : gmap string value :=
  foldl (λ p ks, match p !! ks.1, opt_default ks.2 with
                 | None, Some d => <[ks.1 := d]> p
                 | _, _ => p
                 end) p spec.

Definition check_required_arguments (p : gmap string value) : list validation_error :=
  match filter (λ k, ¬ is_Some (p !! k))
               (map fst (filter (λ ks, opt_required ks.2 = true) spec)) with
  | [] => []
  | missing => [MissingRequired missing]
  end.

(** Each argument present is coerced to its declared type; [None] is left
    alone for an optional argument without default. *)
Definition validate_argument_types (p : gmap string value)
  : list validation_error * gmap string value :=
  foldl (λ ep ks,
           match ep.2 !! ks.1 with
           | None => ep
           | Some v =>
               if is_none v && negb (opt_required ks.2) && negb (bool_decide (is_Some (opt_default ks.2)))
               then ep
               else match check_type fw (opt_type ks.2) v with
                    | Some v' => (ep.1, <[ks.1 := v']> ep.2)
                    | None => (ep.1 ++ [BadType ks.1], ep.2)
                    end
           end) ([], p) spec.

(** An argument with choices holds one of them, or a list of them. *)
Definition validate_argument_values (p : gmap string value) : list validation_error :=
  flat_map (λ ks,
              match opt_choices ks.2, p !! ks.1 with
              | Some choices, Some v =>
                  let ok := match v with
                            | VList items => forallb (in_choices choices) items
                            | _ => in_choices choices v
                            end in
                  if ok then [] else [BadChoice ks.1]
              | _, _ => []
              end) spec.

(** Declared arguments still missing are set to [None]. *)
Definition set_missing_to_none (p : gmap string value) : gmap string value :=
  foldl (λ p ks, match p !! ks.1 with
                 | None => <[ks.1 := VNone]> p
                 | Some _ => p
                 end) p spec.

(** The framework's validation of the task arguments: the errors it
    finds, or [module.params]. *)
Definition validate (args : gmap string value)
  : list validation_error + gmap string value :=
  let exclusive := check_mutually_exclusive args in
  let p1 := set_defaults args in
  let required := check_required_arguments p1 in
  let typed := validate_argument_types p1 in
  let values := validate_argument_values typed.2 in
  let unsupported := match unsupported_parameters args with
                     | [] => []
                     | names => [Unsupported names]
                     end in
  match exclusive ++ required ++ typed.1 ++ values ++ unsupported with
  | [] => inr (set_missing_to_none typed.2)
  | errors => inl errors
  end.
End Validation.

(** ** The module *)

(** [argument_spec] of [main], lines 151-159. An entry without [type] is a
    string; one without [required] is optional. *)
Definition argument_spec : list (string * option_spec) :=
  [ ("name", {| opt_required := true; opt_type := TStr;
                opt_default := None; opt_choices := None |});
    ("dash_config", {| opt_required := false; opt_type := TJson;
                       opt_default := None; opt_choices := None |});
    ("config_file", {| opt_required := false; opt_type := TPath;
                       opt_default := None; opt_choices := None |});
    ("state", {| opt_required := false; opt_type := TStr;
                 opt_default := Some (VStr "present");
                 opt_choices := Some ["present"; "absent"] |});
    ("tags", {| opt_required := false; opt_type := TDict;
                opt_default := None; opt_choices := None |});
    ("wait", {| opt_required := false; opt_type := TBool;
                opt_default := Some (VBool false); opt_choices := None |});
    ("wait_timeout", {| opt_required := false; opt_type := TInt;
                        opt_default := Some (VInt 320); opt_choices := None |}) ].

(** [mutually_exclusive] of [main], line 163. *)
Definition mutually_exclusive : list (list string) := [["policy"; "policy_file"]].

Section Infinidash.
Context (fw : Framework) (host : Host) (client : Client).

(** What the client answers to a call. *)
Definition respond (c : call) : exception + value :=
  match c with
  | DescribeDashes ids => client_describe_dashes client ids
  | CreateDash name config => client_create_dash client name config
  | DeleteDash id => client_delete_dash client id
  end.

(** Make a remote call and note it. *)
Definition remote (c : call) : M (exception + value) :=
  ([(c, respond c)], inr (respond c)).

(** An exception that no handler takes ends the run. *)
Definition raise {A} (c : exc_class) : M A := stop (Uncaught c).

(** A call of [module.exit_json] with positional arguments [args] and
    keyword arguments [kwargs]. The framework declares [exit_json] with
    keyword arguments only: with a positional argument the call raises
    [TypeError] and [exit_json] is not entered. *)
Definition exit_json {A} (args : list value) (kwargs : list (string * value)) : M A :=
  match args with
  | [] => stop (ExitJson kwargs)
  | _ :: _ => raise TypeError
  end.

Definition fail_json {A} (msg : string) (exc : exception)
    (extra : list (string * value)) : M A :=
  stop (FailJson msg exc extra).

Definition fail_json_aws {A} (e : exception) (msg : message) : M A :=
  stop (FailJsonAws e msg).

(** [try: x = <call> except (BotoCoreError, ClientError) as e: handler]:
    the value of the call, the handler on an SDK error; any other
    exception goes up. *)
Definition try_sdk (c : call) (handler : exception -> M value) : M value :=
  r <- remote c ;;
  match r with
  | inr v => ret v
  | inl e => if is_sdk_error e then handler e else raise (exc_class_of e)
  end.

(** Reading a local variable: [UnboundLocalError] when no assignment has
    reached it. *)
Definition load_local (x : option value) : M value :=
  match x with
  | Some v => ret v
  | None => raise UnboundLocalError
  end.

(** [create_dash(client, module, config)], lines 120-139. *)
Definition create_dash (params : gmap string value) (config : value) : M unit :=
  let changed := false in
  dash <- (if truthy (params_get params "dash_id")
           then d <- try_sdk (DescribeDashes (VList [params_get params "dash_id"]))
                       (λ e, fail_json_aws e
                               (Format "Failed to describe dash ID {}"
                                       (params_get params "dash_id"))) ;;
                ret (Some d)
           else ret None) ;;
  d <- load_local dash ;;
  if truthy d
  then exit_json [VBool changed; d] []
  else
    let changed := true in
    dash <- try_sdk (CreateDash (params_get params "name") config)
              (λ e, fail_json_aws e (Literal "Dash creation failed!")) ;;
    exit_json [VBool changed; dash] [].

(** [remove_dash(client, module)], lines 141-147. *)
Definition remove_dash (params : gmap string value) : M unit :=
  let changed := true in
  _ <- try_sdk (DeleteDash (params_get params "dash_id"))
         (λ e, fail_json_aws e
                 (Format "Failed to delete dash ID {}"
                         (params_get params "dash_id"))) ;;
  exit_json [VBool changed] [("dash", VNone)].

(** [AnsibleAWSModule(argument_spec=..., mutually_exclusive=...)]: the
    run ends with the validation errors, or goes on with
    [module.params]. *)
Definition AnsibleAWSModule (spec : list (string * option_spec))
    (groups : list (list string)) (args : gmap string value)
  : M (gmap string value) :=
  match validate fw spec groups args with
  | inl errors => stop (InvalidArguments errors)
  | inr params => ret params
  end.

(** [json.loads(v)]: [TypeError] unless [v] is text, [JSONDecodeError]
    when the text is not JSON. *)
Definition json_loads (v : value) : exception + value :=
  match v with
  | VStr s =>
      match json_decode host s with
      | inr doc => inr doc
      | inl msg => inl (Exception JSONDecodeError msg None)
      end
  | _ => inl (Exception TypeError
                ("the JSON object must be str, bytes or bytearray, not " +:+ type_name v)
                None)
  end.

(** The body of both handlers of [main], lines 176-177 and 184-185,
    [module.fail_json(msg=str(e), exception=traceback.format_exc(),
    **camel_dict_to_snake_dict(e.response))]. The arguments are built
    first: [e.response] raises [AttributeError] on an exception without
    that attribute, and the conversion raises it on a response that is not
    a dictionary (it iterates over [.items()]). The call then raises
    [TypeError] when the converted response has a key that the call already
    binds. *)
Definition report_config_error {A} (e : exception) : M A :=
  match exc_response e with
  | None => raise AttributeError
  | Some (VDict items) =>
      let extra := camel_dict_to_snake_dict fw items in
      if binds_twice extra then raise TypeError
      else fail_json (exc_str e) e extra
  | Some _ => raise AttributeError
  end.

(** [main()], lines 150-188. [client] is what [module.client('dash', ...)]
    returned. *)
Definition main (args : gmap string value) : M unit :=
  params <- AnsibleAWSModule argument_spec mutually_exclusive args ;;
  let state := params_get params "state" in
  if eq_str state "present"
  then
    config <- (if truthy (params_get params "dash_config")
               then match json_loads (params_get params "policy") with
                    | inr doc => ret doc
                    | inl e => if issubclass (exc_class_of e) ValueError
                               then report_config_error e
                               else raise (exc_class_of e)
                    end
               else if truthy (params_get params "config_file")
               then match load_json_file host (params_get params "config_file") with
                    | inr doc => ret doc
                    | inl e => report_config_error e
                    end
               else ret VNone) ;;
    create_dash params config
  else remove_dash params.
End Infinidash.

(** ** How runs end *)

(** How an exception raised by a remote call ends the run: through the
    handler when it is an SDK error, uncaught otherwise. *)
Definition sdk_failure (e : exception) (msg : message) : outcome :=
  if is_sdk_error e then FailJsonAws e msg else Uncaught (exc_class_of e).

(** How the handlers of [main] end the run on an exception [e]. *)
Definition config_failure (fw : Framework) (e : exception) : outcome :=
  match exc_response e with
  | None => Uncaught AttributeError
  | Some (VDict items) =>
      if binds_twice (camel_dict_to_snake_dict fw items) then Uncaught TypeError
      else FailJson (exc_str e) e (camel_dict_to_snake_dict fw items)
  | Some _ => Uncaught AttributeError
  end.

(** A run that ends in [exit_json]. *)
Definition exits (o : outcome) : bool :=
  match o with ExitJson _ => true | _ => false end.

(** ** Sample parties, for evaluating the module on concrete invocations *)

(** A framework that takes a value already of the declared type as it is
    and refuses any other. *)
Definition exact_types : Framework :=
  {| check_type := λ t v,
       match t, v with
       | TStr, VStr _ | TJson, VStr _ | TPath, VStr _
       | TDict, VDict _ | TBool, VBool _ | TInt, VInt _ => Some v
       | _, _ => None
       end;
     camel_dict_to_snake_dict := λ items, items |}.

(** A host that knows one JSON document and has no file. *)
Definition bare_host : Host :=
  {| json_decode := λ s, if String.eqb s "{}" then inr (VDict [])
                         else inl "Expecting value: line 1 column 1 (char 0)";
     load_json_file := λ _, inl (Exception OSError "No such file or directory" None) |}.

Definition a_dash : value := VDict [("DashId", VStr "dash-1")].

(** A service on which every operation succeeds and nothing exists yet. *)
Definition empty_service : Client :=
  {| client_describe_dashes := λ _, inr (VDict []);
     client_create_dash := λ _ _, inr a_dash;
     client_delete_dash := λ _, inr (VDict []) |}.

(** A service on which the described dash exists. *)
Definition full_service : Client :=
  {| client_describe_dashes := λ _, inr a_dash;
     client_create_dash := λ _ _, inr a_dash;
     client_delete_dash := λ _, inr (VDict []) |}.

Definition access_denied : exception :=
  Exception ClientError "An error occurred (AccessDenied)"
            (Some (VDict [("Error", VDict [("Code", VStr "AccessDenied")])])).

(** A service that refuses every operation. *)
Definition failing_service : Client :=
  {| client_describe_dashes := λ _, inl access_denied;
     client_create_dash := λ _ _, inl access_denied;
     client_delete_dash := λ _, inl access_denied |}.

(** ** Sample invocations *)

(** [name: d], the state left to its default. *)
Definition only_name : gmap string value := {[ "name" := VStr "d" ]}.

(** [name: d, state: absent] *)
Definition absent_no_id : gmap string value :=
  <["state" := VStr "absent"]> only_name.

(** [name: d, state: absent, dash_id: dash-1] *)
Definition absent_with_id : gmap string value :=
  <["dash_id" := VStr "dash-1"]> absent_no_id.

(** [name: d, state: absent, dash_config: '{}', config_file: /tmp/dash.json] *)
Definition both_sources : gmap string value :=
  <["dash_config" := VStr "{}"]> (<["config_file" := VStr "/tmp/dash.json"]> absent_no_id).

(** [name: d, dash_config: '{}'] *)
Definition inline_config : gmap string value :=
  <["dash_config" := VStr "{}"]> only_name.

(** [module.params] as [create_dash] and [remove_dash] would see them had
    the framework let [dash_id] through. *)
Definition params_with_id : gmap string value :=
  <["dash_id" := VStr "dash-1"]> (<["name" := VStr "d"]> ∅).

(** [name: other, tags: {env: test}, wait: True], the state left to its
    default. *)
Definition decorated : gmap string value :=
  <["tags" := VDict [("env", VStr "test")]]>
    (<["wait" := VBool true]> {[ "name" := VStr "other" ]}).

(** [name: d, state: gone] *)
Definition unknown_state : gmap string value :=
  <["state" := VStr "gone"]> only_name.

(** [name: d, config_file: /tmp/dash.json] *)
Definition file_config : gmap string value :=
  <["config_file" := VStr "/tmp/dash.json"]> only_name.

Definition interrupted : exception :=
  Exception (OtherException "RuntimeError") "connection pool is closed" None.

(** A service whose operations raise something that is not an SDK error. *)
Definition broken_service : Client :=
  {| client_describe_dashes := λ _, inl interrupted;
     client_create_dash := λ _ _, inl interrupted;
     client_delete_dash := λ _, inl interrupted |}.

(** ** One step of the type validation *)

(** The body of the loop of [validate_argument_types], on its own. *)
Definition coerce_step (fw : Framework)
    (ep : list validation_error * gmap string value) (ks : string * option_spec)
  : list validation_error * gmap string value :=
  match ep.2 !! ks.1 with
  | None => ep
  | Some v =>
      if is_none v && negb (opt_required ks.2) && negb (bool_decide (is_Some (opt_default ks.2)))
      then ep
      else match check_type fw (opt_type ks.2) v with
           | Some v' => (ep.1, <[ks.1 := v']> ep.2)
           | None => (ep.1 ++ [BadType ks.1], ep.2)
           end
  end.

(** ** The validation leaves undeclared names out of [module.params] *)

Lemma set_defaults_other spec (p : gmap string value) (k : string) :
  k ∉ map fst spec → set_defaults spec p !! k = p !! k.
Proof.
  unfold set_defaults. revert p.
  induction spec as [|[k' s] l IH]; intros p Hk; [done|].
  apply not_elem_of_cons in Hk as [Hne Hl].
  cbn [foldl]. rewrite IH by done.
  cbn. destruct (p !! k'); [done|].
  destruct (opt_default s); [|done].
  by apply lookup_insert_ne.
Qed.

Lemma validate_argument_types_other fw spec errs (p : gmap string value) (k : string) :
  k ∉ map fst spec →
  (foldl (λ ep ks,
            match ep.2 !! ks.1 with
            | None => ep
            | Some v =>
                if is_none v && negb (opt_required ks.2)
                   && negb (bool_decide (is_Some (opt_default ks.2)))
                then ep
                else match check_type fw (opt_type ks.2) v with
                     | Some v' => (ep.1, <[ks.1 := v']> ep.2)
                     | None => (ep.1 ++ [BadType ks.1], ep.2)
                     end
            end) (errs, p) spec).2 !! k = p !! k.
Proof.
  revert p errs.
  induction spec as [|[k' s] l IH]; intros p errs Hk; [done|].
  apply not_elem_of_cons in Hk as [Hne Hl].
  cbn [foldl]. cbn [fst snd].
  destruct (p !! k') as [v|]; [|by apply IH].
  destruct (is_none v && negb (opt_required s)
            && negb (bool_decide (is_Some (opt_default s)))); [by apply IH|].
  destruct (check_type fw (opt_type s) v) as [v'|].
  - rewrite IH by done. by apply lookup_insert_ne.
  - by apply IH.
Qed.

Lemma set_missing_to_none_other spec (p : gmap string value) (k : string) :
  k ∉ map fst spec → set_missing_to_none spec p !! k = p !! k.
Proof.
  unfold set_missing_to_none. revert p.
  induction spec as [|[k' s] l IH]; intros p Hk; [done|].
  apply not_elem_of_cons in Hk as [Hne Hl].
  cbn [foldl]. rewrite IH by done.
  cbn. destruct (p !! k'); [done|].
  by apply lookup_insert_ne.
Qed.

Lemma unsupported_parameters_nil spec (args : gmap string value) (k : string) :
  unsupported_parameters spec args = [] → k ∉ spec_keys spec → args !! k = None.
Proof.
  unfold unsupported_parameters. intros Hnil Hk.
  destruct (args !! k) as [v|] eqn:Hv; [|done].
  exfalso.
  assert (Hin : k ∈ filter (λ k, k ∉ spec_keys spec) (map fst (map_to_list args))).
  { apply list_elem_of_filter. split; [done|].
    apply list_elem_of_fmap. exists (k, v). split; [done|].
    by apply elem_of_map_to_list. }
  rewrite Hnil in Hin. by apply not_elem_of_nil in Hin.
Qed.

Lemma validate_unsupported fw spec groups (args params : gmap string value) :
  validate fw spec groups args = inr params → unsupported_parameters spec args = [].
Proof.
  unfold validate. intros H.
  destruct (unsupported_parameters spec args) as [|n ns]; [done|].
  exfalso.
  destruct (check_mutually_exclusive groups args ++ _) as [|e es] eqn:E; [|done].
  repeat (apply app_eq_nil in E; destruct E as [_ E]). done.
Qed.

Lemma validate_params fw spec groups (args params : gmap string value) :
  validate fw spec groups args = inr params →
  params = set_missing_to_none spec
             (validate_argument_types fw spec (set_defaults spec args)).2.
Proof.
  unfold validate. intros H.
  destruct (check_mutually_exclusive groups args ++ _); [|done].
  by injection H.
Qed.

(** A name that [argument_spec] does not declare is never a key of
    [module.params]. *)
Lemma validate_undeclared fw spec groups (args params : gmap string value) (k : string) :
  validate fw spec groups args = inr params →
  k ∉ spec_keys spec → params_get params k = VNone.
Proof.
  intros Hv Hk. unfold params_get.
  rewrite (validate_params _ _ _ _ _ Hv).
  rewrite set_missing_to_none_other by done.
  unfold validate_argument_types.
  rewrite validate_argument_types_other, set_defaults_other by done.
  by rewrite (unsupported_parameters_nil _ _ _ (validate_unsupported _ _ _ _ _ Hv) Hk).
Qed.

(** ** The monad *)

Lemma bind_ret {A B} (a : A) (k : A → M B) : bind (ret a) k = k a.
Proof. unfold bind, ret. by destruct (k a). Qed.

(** ** The runs of [create_dash] and [remove_dash], case by case *)

Section Runs.
Context (client : Client) (params : gmap string value) (config : value).

Lemma create_dash_run :
  create_dash client params config =
  if truthy (params_get params "dash_id") then
    match respond client (DescribeDashes (VList [params_get params "dash_id"])) with
    | inl e =>
        ([(DescribeDashes (VList [params_get params "dash_id"]), inl e)],
         inl (sdk_failure e (Format "Failed to describe dash ID {}"
                                    (params_get params "dash_id"))))
    | inr d =>
        if truthy d
        then ([(DescribeDashes (VList [params_get params "dash_id"]), inr d)],
              inl (Uncaught TypeError))
        else match respond client (CreateDash (params_get params "name") config) with
             | inl e =>
                 ([(DescribeDashes (VList [params_get params "dash_id"]), inr d);
                   (CreateDash (params_get params "name") config, inl e)],
                  inl (sdk_failure e (Literal "Dash creation failed!")))
             | inr d' =>
                 ([(DescribeDashes (VList [params_get params "dash_id"]), inr d);
                   (CreateDash (params_get params "name") config, inr d')],
                  inl (Uncaught TypeError))
             end
    end
  else ([], inl (Uncaught UnboundLocalError)).
Proof.
  unfold create_dash, try_sdk, remote, sdk_failure. cbv zeta.
  destruct (truthy (params_get params "dash_id")); [|done].
  cbn [respond bind ret app].
  destruct (client_describe_dashes client _) as [e|d]; cbn.
  - by destruct (is_sdk_error e).
  - destruct (truthy d); [done|]. cbn.
    destruct (client_create_dash client _ config) as [e|d']; cbn; [|done].
    by destruct (is_sdk_error e).
Qed.

Lemma remove_dash_run :
  remove_dash client params =
  match respond client (DeleteDash (params_get params "dash_id")) with
  | inl e =>
      ([(DeleteDash (params_get params "dash_id"), inl e)],
       inl (sdk_failure e (Format "Failed to delete dash ID {}"
                                  (params_get params "dash_id"))))
  | inr r =>
      ([(DeleteDash (params_get params "dash_id"), inr r)],
       inl (Uncaught TypeError))
  end.
Proof.
  unfold remove_dash, try_sdk, remote, sdk_failure.
  cbn [respond bind ret app].
  destruct (client_delete_dash client _) as [e|r]; cbn; [|done].
  by destruct (is_sdk_error e).
Qed.
End Runs.

(** ** The runs of [main] *)

Lemma main_rejected fw host client (args : gmap string value) errors :
  validate fw argument_spec mutually_exclusive args = inl errors →
  main fw host client args = ([], inl (InvalidArguments errors)).
Proof. intros Hv. unfold main, AnsibleAWSModule. by rewrite Hv. Qed.

Lemma report_config_error_run {A} fw (e : exception) :
  @report_config_error fw A e = ([], inl (config_failure fw e)).
Proof.
  unfold report_config_error, config_failure.
  destruct (exc_response e) as [[| | | | |items]|]; try done.
  cbv zeta. by destruct (binds_twice _).
Qed.

(** [module.params] never holds [dash_id] nor [policy]. *)
Lemma main_params_undeclared fw (args params : gmap string value) :
  validate fw argument_spec mutually_exclusive args = inr params →
  params_get params "dash_id" = VNone ∧ params_get params "policy" = VNone.
Proof.
  intros Hv.
  split; apply (validate_undeclared _ _ _ _ _ _ Hv);
    apply (bool_decide_unpack _); by vm_compute.
Qed.

Lemma main_accepted fw host client (args params : gmap string value) :
  validate fw argument_spec mutually_exclusive args = inr params →
  main fw host client args =
  if eq_str (params_get params "state") "present" then
    if truthy (params_get params "dash_config") then ([], inl (Uncaught TypeError))
    else if truthy (params_get params "config_file") then
      match load_json_file host (params_get params "config_file") with
      | inr doc => ([], inl (Uncaught UnboundLocalError))
      | inl e => ([], inl (config_failure fw e))
      end
    else ([], inl (Uncaught UnboundLocalError))
  else remove_dash client params.
Proof.
  intros Hv. destruct (main_params_undeclared _ _ _ Hv) as [Hid Hpolicy].
  unfold main, AnsibleAWSModule. rewrite Hv, bind_ret. cbv zeta.
  destruct (eq_str (params_get params "state") "present"); [|done].
  rewrite Hpolicy.
  destruct (truthy (params_get params "dash_config")); [done|].
  destruct (truthy (params_get params "config_file")).
  - destruct (load_json_file host _) as [e|doc].
    + by rewrite report_config_error_run.
    + rewrite bind_ret, create_dash_run. by rewrite Hid.
  - rewrite bind_ret, create_dash_run. by rewrite Hid.
Qed.

(** ** The module on the sample invocations *)

Example main_only_name :
  main exact_types bare_host empty_service only_name
  = ([], inl (Uncaught UnboundLocalError)).
Proof. by vm_compute. Qed.

Example main_inline_config :
  main exact_types bare_host empty_service inline_config
  = ([], inl (Uncaught TypeError)).
Proof. by vm_compute. Qed.

Example main_config_file :
  main exact_types bare_host empty_service
    (<["config_file" := VStr "/tmp/dash.json"]> only_name)
  = ([], inl (Uncaught AttributeError)).
Proof. by vm_compute. Qed.

Example main_absent :
  main exact_types bare_host failing_service absent_no_id
  = ([(DeleteDash VNone, inl access_denied)],
     inl (FailJsonAws access_denied (Format "Failed to delete dash ID {}" VNone))).
Proof. by vm_compute. Qed.

Example main_without_name :
  main exact_types bare_host empty_service ∅
  = ([], inl (InvalidArguments [MissingRequired ["name"]])).
Proof. by vm_compute. Qed.

Example main_unknown_state :
  main exact_types bare_host empty_service (<["state" := VStr "gone"]> only_name)
  = ([], inl (InvalidArguments [BadChoice "state"])).
Proof. by vm_compute. Qed.

Example main_policy_options :
  main exact_types bare_host empty_service
    (<["policy" := VStr "{}"]> (<["policy_file" := VStr "p.json"]> only_name))
  = ([], inl (InvalidArguments [MutuallyExclusive ["policy"; "policy_file"];
                                Unsupported ["policy_file"; "policy"]])).
Proof. by vm_compute. Qed.

Example create_dash_with_id :
  create_dash empty_service params_with_id (VDict [])
  = ([(DescribeDashes (VList [VStr "dash-1"]), inr (VDict []));
      (CreateDash (VStr "d") (VDict []), inr a_dash)],
     inl (Uncaught TypeError)).
Proof. by vm_compute. Qed.

Ltac members :=
  repeat match goal with
         | H : _ ∈ [] |- _ => by apply not_elem_of_nil in H
         | H : _ ∈ _ :: _ |- _ => apply elem_of_cons in H as [H|H]
         end.

(** ** Argument validation: what [main] accepts *)

(** The exclusion group of line 163 names [policy] and [policy_file]; on
    arguments the module declares it never reports anything. *)
Lemma exclusion_never_fires (args : gmap string value) :
  unsupported_parameters argument_spec args = [] →
  check_mutually_exclusive mutually_exclusive args = [].
Proof.
  intros Hu.
  assert (Hnot : ∀ k, k ∈ ["policy"; "policy_file"] → args !! k = None).
  { intros k Hk. apply (unsupported_parameters_nil _ _ _ Hu).
    members; subst; apply (bool_decide_unpack _); by vm_compute. }
  unfold check_mutually_exclusive, mutually_exclusive. cbn [flat_map].
  assert (Hnone : ∀ k, k ∈ ["policy"; "policy_file"] → ¬ is_Some (args !! k)).
  { intros k Hk [v Hv]. by rewrite (Hnot k Hk) in Hv. }
  rewrite !filter_cons_False, filter_nil; [done| |];
    apply Hnone; repeat constructor.
Qed.

(** C1: an invocation that supplies both [dash_config] and [config_file]
    is not rejected. With [state: absent] the arguments pass the
    validation and the delete operation is called (the run then ends in the
    [TypeError] of [exit_json(changed, dash=None)]): the documented
    exclusion of the two options is not enforced. *)
Theorem both_config_sources_accepted :
  main exact_types bare_host empty_service both_sources =
  ([(DeleteDash VNone, inr (VDict []))], inl (Uncaught TypeError)).
Proof. by vm_compute. Qed.

(** C2: an accepted invocation with [state: absent] never carries a
    [dash_id], and it is not rejected: the module calls the delete
    operation, with [DashId=None]. *)
Theorem absent_without_id_calls_delete fw host client (args params : gmap string value) :
  validate fw argument_spec mutually_exclusive args = inr params →
  params_get params "state" = VStr "absent" →
  params_get params "dash_id" = VNone ∧
  calls (trace (main fw host client args)) = [DeleteDash VNone].
Proof.
  intros Hv Hstate. destruct (main_params_undeclared _ _ _ Hv) as [Hid _].
  split; [done|].
  rewrite (main_accepted _ _ _ _ _ Hv), Hstate.
  replace (eq_str (VStr "absent") "present") with false by done.
  rewrite remove_dash_run, Hid.
  by destruct (respond client (DeleteDash VNone)).
Qed.

Lemma absent_without_id_calls_delete_witness :
  validate exact_types argument_spec mutually_exclusive absent_no_id
  = inr (<["wait_timeout" := VInt 320]> (<["wait" := VBool false]>
          (<["tags" := VNone]> (<["config_file" := VNone]>
            (<["dash_config" := VNone]> absent_no_id))))) ∧
  calls (trace (main exact_types bare_host empty_service absent_no_id))
  = [DeleteDash VNone].
Proof.
  split; [by vm_compute|].
  eapply (absent_without_id_calls_delete exact_types bare_host empty_service absent_no_id);
    by vm_compute.
Defined.

(** C3: an accepted invocation with [state: present] makes no remote call
    and does not end in [exit_json]: nothing is described or created, no
    change is reported and no resource is returned. *)
Theorem present_never_completes fw host client (args params : gmap string value) :
  validate fw argument_spec mutually_exclusive args = inr params →
  params_get params "state" = VStr "present" →
  ∃ o, main fw host client args = ([], inl o) ∧ exits o = false.
Proof.
  intros Hv Hstate.
  rewrite (main_accepted _ _ _ _ _ Hv), Hstate.
  replace (eq_str (VStr "present") "present") with true by done.
  destruct (truthy (params_get params "dash_config")); [by eexists|].
  destruct (truthy (params_get params "config_file")); [|by eexists].
  destruct (load_json_file host _) as [e|doc]; [|by eexists].
  eexists. split; [done|].
  unfold config_failure.
  destruct (exc_response e) as [[| | | | |items]|]; try done.
  by destruct (binds_twice _).
Qed.

Lemma present_never_completes_witness :
  main exact_types bare_host empty_service only_name
  = ([], inl (Uncaught UnboundLocalError)) ∧
  ∃ o, main exact_types bare_host empty_service only_name = ([], inl o)
       ∧ exits o = false.
Proof.
  split; [by vm_compute|].
  eapply (present_never_completes exact_types bare_host empty_service only_name);
    by vm_compute.
Defined.

(** C4: the options [main] declares are [name], [dash_config],
    [config_file], [state], [tags], [wait] and [wait_timeout]; [dash_id] is
    not among them, and an invocation that supplies it is refused as an
    unsupported parameter before anything else happens. *)
Theorem dash_id_not_accepted fw host client (args : gmap string value) :
  is_Some (args !! "dash_id") →
  spec_keys argument_spec
  = ["name"; "dash_config"; "config_file"; "state"; "tags"; "wait"; "wait_timeout"] ∧
  ∃ errors names,
    main fw host client args = ([], inl (InvalidArguments errors)) ∧
    Unsupported names ∈ errors ∧ "dash_id" ∈ names.
Proof.
  intros [v Hv]. split; [done|].
  assert (Hin : "dash_id" ∈ unsupported_parameters argument_spec args).
  { apply list_elem_of_filter. split.
    - apply (bool_decide_unpack _). by vm_compute.
    - apply list_elem_of_fmap. exists ("dash_id", v). split; [done|].
      by apply elem_of_map_to_list. }
  destruct (validate fw argument_spec mutually_exclusive args) as [errors|params] eqn:E.
  - exists errors, (unsupported_parameters argument_spec args).
    split; [by apply main_rejected|]. split; [|done].
    unfold validate in E.
    destruct (unsupported_parameters argument_spec args) as [|n ns];
      [by apply not_elem_of_nil in Hin|].
    destruct (check_mutually_exclusive mutually_exclusive args ++ _) as [|e es] eqn:El;
      [done|].
    injection E as <-. rewrite <- El.
    rewrite !elem_of_app. do 4 right. by apply list_elem_of_singleton.
  - apply validate_unsupported in E. rewrite E in Hin.
    by apply not_elem_of_nil in Hin.
Qed.

Lemma dash_id_not_accepted_witness :
  is_Some (absent_with_id !! "dash_id") ∧
  main exact_types bare_host empty_service absent_with_id
  = ([], inl (InvalidArguments [Unsupported ["dash_id"]])) ∧
  (spec_keys argument_spec
   = ["name"; "dash_config"; "config_file"; "state"; "tags"; "wait"; "wait_timeout"] ∧
   ∃ errors names,
     main exact_types bare_host empty_service absent_with_id
     = ([], inl (InvalidArguments errors)) ∧
     Unsupported names ∈ errors ∧ "dash_id" ∈ names).
Proof.
  assert (H : is_Some (absent_with_id !! "dash_id"))
    by (exists (VStr "dash-1"); by vm_compute).
  split; [exact H|]. split; [by vm_compute|].
  exact (dash_id_not_accepted exact_types bare_host empty_service absent_with_id H).
Defined.

(** ** Creation *)

(** The only remote call [main] can make is [delete_dash(DashId=None)]. *)
Lemma main_calls_within fw host client (args : gmap string value) c :
  c ∈ calls (trace (main fw host client args)) → c = DeleteDash VNone.
Proof.
  intros Hc.
  destruct (validate fw argument_spec mutually_exclusive args) as [errors|p] eqn:Hv.
  { rewrite (main_rejected _ _ _ _ _ Hv) in Hc. cbn in Hc. members. }
  destruct (main_params_undeclared _ _ _ Hv) as [Hid _].
  rewrite (main_accepted _ _ _ _ _ Hv) in Hc.
  destruct (eq_str (params_get p "state") "present").
  - exfalso.
    destruct (truthy (params_get p "dash_config")); [cbn in Hc; members|].
    destruct (truthy (params_get p "config_file")); [|cbn in Hc; members].
    destruct (load_json_file host _); cbn in Hc; members.
  - rewrite remove_dash_run, Hid in Hc.
    destruct (respond client (DeleteDash VNone)); cbn in Hc; members; done.
Qed.

(** C5: a successful create is not reported. [main] never makes the create
    call, whatever the invocation and the service; and in every run of
    [create_dash] in which the create call is made and returns a dash, the
    run ends in the [TypeError] of [exit_json(changed, dash)], whose two
    arguments are positional: neither [changed = True] nor the dash
    reaches the framework. *)
Theorem successful_create_is_not_reported fw host client
    (args params : gmap string value) config :
  Forall (λ c, is_create c = false) (calls (trace (main fw host client args))) ∧
  ∀ c d,
    is_create c = true →
    (c, inr d) ∈ trace (create_dash client params config) →
    ∃ ids found,
      truthy found = false ∧
      create_dash client params config
      = ([(DescribeDashes ids, inr found); (c, inr d)], inl (Uncaught TypeError)).
Proof.
  split.
  { apply Forall_forall. intros c Hc.
    by rewrite (main_calls_within _ _ _ _ _ Hc). }
  intros c d Hc Hin. rewrite create_dash_run in Hin |- *.
  destruct (truthy (params_get params "dash_id")); [|cbn in Hin; members].
  destruct (respond client (DescribeDashes _)) as [e|found];
    [cbn in Hin; members; by simplify_eq|].
  destruct (truthy found) eqn:Hfound; [cbn in Hin; members; by simplify_eq|].
  destruct (respond client (CreateDash _ _)) as [e|d'];
    cbn in Hin; members; simplify_eq; try done.
  by eexists _, _.
Qed.

Lemma successful_create_is_not_reported_witness :
  main exact_types bare_host empty_service only_name
  = ([], inl (Uncaught UnboundLocalError)) ∧
  ∃ ids found,
    truthy found = false ∧
    create_dash empty_service params_with_id (VDict [])
    = ([(DescribeDashes ids, inr found);
        (CreateDash (VStr "d") (VDict []), inr a_dash)],
       inl (Uncaught TypeError)).
Proof.
  split; [by vm_compute|].
  apply (proj2 (successful_create_is_not_reported exact_types bare_host
                  empty_service only_name params_with_id (VDict []))
           (CreateDash (VStr "d") (VDict [])) a_dash).
  - reflexivity.
  - vm_compute. apply list_elem_of_further, list_elem_of_here.
Defined.

(** C6: a dash that exists is not reported as unchanged. [main] never
    makes the describe call, whatever the invocation and the service; and
    in every run of [create_dash] in which the describe call returns a dash
    that exists, the describe is the only remote call (nothing is created)
    and the run ends in the [TypeError] of [exit_json(changed, dash)]:
    [changed = False] never reaches the framework. *)
Theorem existing_dash_is_not_reported fw host client
    (args params : gmap string value) config :
  Forall (λ c, is_describe c = false) (calls (trace (main fw host client args))) ∧
  ∀ ids d,
    (DescribeDashes ids, inr d) ∈ trace (create_dash client params config) →
    truthy d = true →
    create_dash client params config
    = ([(DescribeDashes ids, inr d)], inl (Uncaught TypeError)).
Proof.
  split.
  { apply Forall_forall. intros c Hc.
    by rewrite (main_calls_within _ _ _ _ _ Hc). }
  intros ids d Hin Hd. rewrite create_dash_run in Hin |- *.
  destruct (truthy (params_get params "dash_id")); [|cbn in Hin; members].
  destruct (respond client (DescribeDashes _)) as [e|found];
    [cbn in Hin; members; by simplify_eq|].
  destruct (truthy found) eqn:Hfound.
  - cbn in Hin. members. by simplify_eq.
  - destruct (respond client (CreateDash _ _)) as [e|d'];
      cbn in Hin; members; simplify_eq; congruence.
Qed.

Lemma existing_dash_is_not_reported_witness :
  main exact_types bare_host full_service only_name
  = ([], inl (Uncaught UnboundLocalError)) ∧
  create_dash full_service params_with_id (VDict [])
  = ([(DescribeDashes (VList [VStr "dash-1"]), inr a_dash)],
     inl (Uncaught TypeError)).
Proof.
  split; [by vm_compute|].
  apply (proj2 (existing_dash_is_not_reported exact_types bare_host full_service
                  only_name params_with_id (VDict []))
           (VList [VStr "dash-1"]) a_dash).
  - vm_compute. apply list_elem_of_here.
  - reflexivity.
Defined.



(** ** Remote failures *)

(** C7: whenever a remote call of [create_dash], [remove_dash] or [main]
    raises an SDK error, that call is the last thing the run does, it was
    not made before, and the run ends in [fail_json_aws] with the very
    exception the call raised (its message and traceback with it). *)
Theorem remote_failure_is_reported fw host client
    (args params : gmap string value) config (run : M unit) c e :
  run = create_dash client params config ∨
  run = remove_dash client params ∨
  run = main fw host client args →
  (c, inl e) ∈ trace run →
  is_sdk_error e = true →
  ∃ before msg,
    run = (before ++ [(c, inl e)], inl (FailJsonAws e msg)) ∧
    c ∉ calls before.
Proof.
  intros Hrun Hin He.
  assert (Hremove : ∀ p, (c, inl e) ∈ trace (remove_dash client p) →
            ∃ before msg,
              remove_dash client p = (before ++ [(c, inl e)], inl (FailJsonAws e msg))
              ∧ c ∉ calls before).
  { intros p Hp. rewrite remove_dash_run in Hp |- *.
    destruct (respond client (DeleteDash _)) as [e'|r];
      cbn in Hp; members; simplify_eq.
    exists [], (Format "Failed to delete dash ID {}" (params_get p "dash_id")).
    unfold sdk_failure. rewrite He. split; [done|]. apply not_elem_of_nil. }
  destruct Hrun as [-> | [-> | ->]].
  - rewrite create_dash_run in Hin |- *.
    destruct (truthy (params_get params "dash_id")); [|cbn in Hin; members].
    destruct (respond client (DescribeDashes _)) as [e'|found].
    { cbn in Hin. members. simplify_eq.
      exists [], (Format "Failed to describe dash ID {}" (params_get params "dash_id")).
      unfold sdk_failure. rewrite He. split; [done|]. apply not_elem_of_nil. }
    destruct (truthy found); [cbn in Hin; members; by simplify_eq|].
    destruct (respond client (CreateDash _ _)) as [e'|d'];
      cbn in Hin; members; simplify_eq.
    eexists [_], (Literal "Dash creation failed!").
    unfold sdk_failure. rewrite He. split; [done|].
    cbn. intros Hc. members. by simplify_eq.
  - by apply Hremove.
  - destruct (validate fw argument_spec mutually_exclusive args) as [errors|p] eqn:Hv.
    { rewrite (main_rejected _ _ _ _ _ Hv) in Hin. cbn in Hin. members. }
    rewrite (main_accepted _ _ _ _ _ Hv) in Hin |- *.
    destruct (eq_str (params_get p "state") "present"); [|by apply Hremove].
    exfalso.
    destruct (truthy (params_get p "dash_config")); [cbn in Hin; members|].
    destruct (truthy (params_get p "config_file")); [|cbn in Hin; members].
    destruct (load_json_file host _); cbn in Hin; members.
Qed.

Lemma remote_failure_is_reported_witness :
  ∃ before msg,
    create_dash failing_service params_with_id (VDict [])
    = (before ++ [(DescribeDashes (VList [VStr "dash-1"]), inl access_denied)],
       inl (FailJsonAws access_denied msg)) ∧
    DescribeDashes (VList [VStr "dash-1"]) ∉ calls before.
Proof.
  apply (remote_failure_is_reported exact_types bare_host failing_service
           only_name params_with_id (VDict [])).
  - left. reflexivity.
  - vm_compute. apply list_elem_of_here.
  - reflexivity.
Defined.

(** ** The inline configuration *)

(** C9: an accepted invocation with [state: present] and a non-empty
    [dash_config] hands [module.params.get('policy')], which is [None], to
    [json.loads]; the [TypeError] goes uncaught and no remote call is made.
    Had the parser raised the [ValueError] the handler is written for, the
    handler would itself fail on [e.response]. *)
Theorem inline_config_never_reaches_create fw host client
    (args params : gmap string value) :
  validate fw argument_spec mutually_exclusive args = inr params →
  params_get params "state" = VStr "present" →
  truthy (params_get params "dash_config") = true →
  params_get params "policy" = VNone ∧
  main fw host client args = ([], inl (Uncaught TypeError)) ∧
  ∀ v e, json_loads host v = inl e →
         @report_config_error fw unit e = ([], inl (Uncaught AttributeError)).
Proof.
  intros Hv Hstate Hconfig.
  split; [apply (main_params_undeclared _ _ _ Hv)|]. split.
  - rewrite (main_accepted _ _ _ _ _ Hv), Hstate, Hconfig. done.
  - intros v e Hload. rewrite report_config_error_run.
    unfold json_loads in Hload.
    destruct v; try (by injection Hload as <-).
    destruct (json_decode host s); [by injection Hload as <-|done].
Qed.

Lemma inline_config_never_reaches_create_witness :
  truthy (VStr "{}") = true ∧
  main exact_types bare_host empty_service inline_config
  = ([], inl (Uncaught TypeError)).
Proof.
  split; [reflexivity|].
  refine (proj1 (proj2 (inline_config_never_reaches_create exact_types bare_host
                          empty_service inline_config
                          (<["wait_timeout" := VInt 320]> (<["wait" := VBool false]>
                            (<["tags" := VNone]> (<["state" := VStr "present"]>
                              (<["config_file" := VNone]> inline_config)))))
                          _ _ _))); by vm_compute.
Defined.

(** ** Deletion *)

(** C10: a delete that succeeded is not reported. An accepted invocation
    with [state: absent] makes one remote call, the delete, and no describe
    before it; when the delete returns, whatever it returns, the run ends
    in the [TypeError] of [exit_json(changed, dash=None)], whose first
    argument is positional: neither [changed = True] nor the null dash
    reaches the framework. *)
Theorem successful_delete_is_not_reported fw host client
    (args params : gmap string value) r :
  validate fw argument_spec mutually_exclusive args = inr params →
  params_get params "state" = VStr "absent" →
  client_delete_dash client (params_get params "dash_id") = inr r →
  main fw host client args
  = ([(DeleteDash (params_get params "dash_id"), inr r)],
     inl (Uncaught TypeError)) ∧
  remove_dash client params = main fw host client args.
Proof.
  intros Hv Hstate Hdelete.
  rewrite (main_accepted _ _ _ _ _ Hv), Hstate.
  replace (eq_str (VStr "absent") "present") with false by done.
  split; [|done].
  rewrite remove_dash_run. cbn [respond]. by rewrite Hdelete.
Qed.

Lemma successful_delete_is_not_reported_witness :
  main exact_types bare_host empty_service absent_no_id
  = ([(DeleteDash VNone, inr (VDict []))], inl (Uncaught TypeError)).
Proof.
  refine (proj1 (successful_delete_is_not_reported exact_types bare_host
                   empty_service absent_no_id
                   (<["wait_timeout" := VInt 320]> (<["wait" := VBool false]>
                     (<["tags" := VNone]> (<["config_file" := VNone]>
                       (<["dash_config" := VNone]> absent_no_id)))))
                   (VDict []) _ _ _)); by vm_compute.
Defined.

(** ** What [module.params] holds for a declared option *)

Lemma validate_argument_types_fold fw spec (p : gmap string value) :
  validate_argument_types fw spec p = foldl (coerce_step fw) ([], p) spec.
Proof. done. Qed.

Lemma set_defaults_lookup spec (p : gmap string value) k s :
  NoDup (map fst spec) → (k, s) ∈ spec →
  set_defaults spec p !! k
  = match p !! k with Some v => Some v | None => opt_default s end.
Proof.
  revert p. induction spec as [|[k' s'] l IH]; intros p Hnd Hin;
    [by apply not_elem_of_nil in Hin|].
  apply NoDup_cons in Hnd as [Hk' Hnd].
  apply elem_of_cons in Hin as [Heq|Hin].
  - injection Heq as <- <-.
    change (set_defaults ((k, s) :: l) p)
      with (set_defaults l (match p !! k, opt_default s with
                            | None, Some d => <[k := d]> p
                            | _, _ => p
                            end)).
    rewrite set_defaults_other by done.
    destruct (p !! k) eqn:Hp; [done|].
    destruct (opt_default s); [by rewrite lookup_insert_eq|done].
  - assert (Hne : k' ≠ k).
    { intros ->. apply Hk'. apply list_elem_of_fmap. by exists (k, s). }
    change (set_defaults ((k', s') :: l) p)
      with (set_defaults l (match p !! k', opt_default s' with
                            | None, Some d => <[k' := d]> p
                            | _, _ => p
                            end)).
    rewrite IH by done.
    destruct (p !! k'); [done|].
    destruct (opt_default s'); [|done].
    by rewrite lookup_insert_ne.
Qed.

Lemma set_missing_to_none_lookup spec (p : gmap string value) k s :
  NoDup (map fst spec) → (k, s) ∈ spec →
  set_missing_to_none spec p !! k = Some (default VNone (p !! k)).
Proof.
  revert p. induction spec as [|[k' s'] l IH]; intros p Hnd Hin;
    [by apply not_elem_of_nil in Hin|].
  apply NoDup_cons in Hnd as [Hk' Hnd].
  apply elem_of_cons in Hin as [Heq|Hin].
  - injection Heq as <- <-.
    change (set_missing_to_none ((k, s) :: l) p)
      with (set_missing_to_none l (match p !! k with
                                   | None => <[k := VNone]> p
                                   | Some _ => p
                                   end)).
    rewrite set_missing_to_none_other by done.
    destruct (p !! k) eqn:Hp; [by rewrite Hp|].
    by rewrite lookup_insert_eq.
  - assert (Hne : k' ≠ k).
    { intros ->. apply Hk'. apply list_elem_of_fmap. by exists (k, s). }
    change (set_missing_to_none ((k', s') :: l) p)
      with (set_missing_to_none l (match p !! k' with
                                   | None => <[k' := VNone]> p
                                   | Some _ => p
                                   end)).
    rewrite IH by done.
    destruct (p !! k'); [done|].
    by rewrite lookup_insert_ne.
Qed.

(** Errors found by the type validation are never dropped. *)
Lemma coerce_fold_errors fw l errs (p : gmap string value) :
  errs ≠ [] → (foldl (coerce_step fw) (errs, p) l).1 ≠ [].
Proof.
  revert errs p. induction l as [|[k s] l IH]; intros errs p Hne; [done|].
  cbn [foldl]. unfold coerce_step at 2. cbn [fst snd].
  destruct (p !! k) as [v|]; [|by apply IH].
  destruct (is_none v && _ && _); [by apply IH|].
  destruct (check_type fw (opt_type s) v); apply IH; [done|].
  intros Happ. apply app_eq_nil in Happ as [? _]. done.
Qed.

Lemma coerce_fold_other fw l errs (p : gmap string value) k :
  k ∉ map fst l → (foldl (coerce_step fw) (errs, p) l).2 !! k = p !! k.
Proof. apply validate_argument_types_other. Qed.

(** The value the type validation leaves under a declared name, or the
    error it records. *)
Lemma coerce_fold_lookup fw l errs (p : gmap string value) k s :
  NoDup (map fst l) → (k, s) ∈ l →
  match p !! k with
  | None => (foldl (coerce_step fw) (errs, p) l).2 !! k = None
  | Some v =>
      if is_none v && negb (opt_required s) && negb (bool_decide (is_Some (opt_default s)))
      then (foldl (coerce_step fw) (errs, p) l).2 !! k = Some v
      else match check_type fw (opt_type s) v with
           | Some v' => (foldl (coerce_step fw) (errs, p) l).2 !! k = Some v'
           | None => (foldl (coerce_step fw) (errs, p) l).1 ≠ []
           end
  end.
Proof.
  revert errs p. induction l as [|[k' s'] l IH]; intros errs p Hnd Hin;
    [by apply not_elem_of_nil in Hin|].
  apply NoDup_cons in Hnd as [Hk' Hnd].
  apply elem_of_cons in Hin as [Heq|Hin].
  - injection Heq as <- <-. cbn [foldl]. unfold coerce_step at 2 4 6 8. cbn [fst snd].
    destruct (p !! k) as [v|] eqn:Hp.
    + destruct (is_none v && _ && _).
      * by rewrite coerce_fold_other.
      * destruct (check_type fw (opt_type s) v) as [v'|].
        -- rewrite coerce_fold_other by done. apply lookup_insert_eq.
        -- apply coerce_fold_errors. intros Happ.
           apply app_eq_nil in Happ as [_ ?]. done.
    + by rewrite coerce_fold_other.
  - assert (Hne : k' ≠ k).
    { intros ->. apply Hk'. apply list_elem_of_fmap. by exists (k, s). }
    cbn [foldl].
    destruct (coerce_step fw (errs, p) (k', s')) as [errs' p'] eqn:Hstep.
    assert (Hp' : p' !! k = p !! k).
    { unfold coerce_step in Hstep. cbn [fst snd] in Hstep.
      destruct (p !! k') as [v|]; [|by injection Hstep as <- <-].
      destruct (is_none v && _ && _); [by injection Hstep as <- <-|].
      destruct (check_type fw (opt_type s') v); injection Hstep as <- <-; [|done].
      by apply lookup_insert_ne. }
    specialize (IH errs' p' Hnd Hin). by rewrite Hp' in IH.
Qed.

Lemma argument_spec_NoDup : NoDup (map fst argument_spec).
Proof. apply (bool_decide_unpack _). by vm_compute. Qed.

(** Any error the validation finds makes it fail, with that error among
    those reported. *)
Lemma validate_error fw spec groups (args : gmap string value) err :
  err ∈ check_mutually_exclusive groups args
        ++ check_required_arguments spec (set_defaults spec args)
        ++ (validate_argument_types fw spec (set_defaults spec args)).1
        ++ validate_argument_values spec
             (validate_argument_types fw spec (set_defaults spec args)).2
        ++ match unsupported_parameters spec args with
           | [] => []
           | names => [Unsupported names]
           end →
  ∃ errors, validate fw spec groups args = inl errors ∧ err ∈ errors.
Proof.
  intros Hin. unfold validate. cbv zeta.
  destruct (check_mutually_exclusive groups args ++ _) as [|e es];
    [by apply not_elem_of_nil in Hin|].
  by eexists.
Qed.

(** What an accepted invocation went through. *)
Lemma validate_accepted fw spec groups (args params : gmap string value) :
  validate fw spec groups args = inr params →
  check_required_arguments spec (set_defaults spec args) = [] ∧
  (validate_argument_types fw spec (set_defaults spec args)).1 = [] ∧
  validate_argument_values spec
    (validate_argument_types fw spec (set_defaults spec args)).2 = [] ∧
  params = set_missing_to_none spec
             (validate_argument_types fw spec (set_defaults spec args)).2.
Proof.
  intros Hv. split_and!; [| | |by apply (validate_params _ _ _ _ _ Hv)];
    unfold validate in Hv; cbv zeta in Hv;
    destruct (check_mutually_exclusive groups args ++ _) as [|e es] eqn:E;
      try done;
    apply app_eq_nil in E as [_ E]; apply app_eq_nil in E as [E1 E];
    apply app_eq_nil in E as [E2 E]; apply app_eq_nil in E as [E3 _]; done.
Qed.

(** [module.params] under a declared name: the supplied value, else the
    default, coerced to the declared type; [None] when there is neither. *)
Lemma validate_lookup fw spec groups (args params : gmap string value) k s :
  NoDup (map fst spec) → (k, s) ∈ spec →
  validate fw spec groups args = inr params →
  match (match args !! k with Some v => Some v | None => opt_default s end) with
  | None => params !! k = Some VNone
  | Some v =>
      if is_none v && negb (opt_required s) && negb (bool_decide (is_Some (opt_default s)))
      then params !! k = Some v
      else ∃ v', check_type fw (opt_type s) v = Some v' ∧ params !! k = Some v'
  end.
Proof.
  intros Hnd Hin Hv.
  destruct (validate_accepted _ _ _ _ _ Hv) as (_ & Htyped & _ & ->).
  rewrite (set_missing_to_none_lookup _ _ _ _ Hnd Hin).
  rewrite validate_argument_types_fold in Htyped |- *.
  pose proof (coerce_fold_lookup fw spec [] (set_defaults spec args) k s Hnd Hin) as H.
  rewrite (set_defaults_lookup _ _ _ _ Hnd Hin) in H.
  destruct (match args !! k with Some v => Some v | None => opt_default s end) as [v|].
  - destruct (is_none v && _ && _); [by rewrite H|].
    destruct (check_type fw (opt_type s) v) as [v'|]; [|done].
    exists v'. by rewrite H.
  - by rewrite H.
Qed.

(** ** Further properties of the remote calls *)

(** X1: the handlers take SDK errors only. When a remote call of
    [create_dash], [remove_dash] or [main] raises any other exception, the
    call is the last thing the run does and the exception goes up uncaught:
    no failure report is made for it. *)
Theorem foreign_exception_goes_uncaught fw host client
    (args params : gmap string value) config (run : M unit) c e :
  run = create_dash client params config ∨
  run = remove_dash client params ∨
  run = main fw host client args →
  (c, inl e) ∈ trace run →
  is_sdk_error e = false →
  ∃ before, run = (before ++ [(c, inl e)], inl (Uncaught (exc_class_of e))).
Proof.
  intros Hrun Hin He.
  assert (Hremove : ∀ p, (c, inl e) ∈ trace (remove_dash client p) →
            ∃ before,
              remove_dash client p
              = (before ++ [(c, inl e)], inl (Uncaught (exc_class_of e)))).
  { intros p Hp. rewrite remove_dash_run in Hp |- *.
    destruct (respond client (DeleteDash _)) as [e'|r];
      cbn in Hp; members; simplify_eq.
    exists []. unfold sdk_failure. by rewrite He. }
  destruct Hrun as [-> | [-> | ->]].
  - rewrite create_dash_run in Hin |- *.
    destruct (truthy (params_get params "dash_id")); [|cbn in Hin; members].
    destruct (respond client (DescribeDashes _)) as [e'|found].
    { cbn in Hin. members. simplify_eq.
      exists []. unfold sdk_failure. by rewrite He. }
    destruct (truthy found); [cbn in Hin; members; by simplify_eq|].
    destruct (respond client (CreateDash _ _)) as [e'|d'];
      cbn in Hin; members; simplify_eq.
    eexists [_]. unfold sdk_failure. by rewrite He.
  - by apply Hremove.
  - destruct (validate fw argument_spec mutually_exclusive args) as [errors|p] eqn:Hv.
    { rewrite (main_rejected _ _ _ _ _ Hv) in Hin. cbn in Hin. members. }
    rewrite (main_accepted _ _ _ _ _ Hv) in Hin |- *.
    destruct (eq_str (params_get p "state") "present"); [|by apply Hremove].
    exfalso.
    destruct (truthy (params_get p "dash_config")); [cbn in Hin; members|].
    destruct (truthy (params_get p "config_file")); [|cbn in Hin; members].
    destruct (load_json_file host _); cbn in Hin; members.
Qed.

Lemma foreign_exception_goes_uncaught_witness :
  ∃ before,
    main exact_types bare_host broken_service absent_no_id
    = (before ++ [(DeleteDash VNone, inl interrupted)],
       inl (Uncaught (OtherException "RuntimeError"))).
Proof.
  apply (foreign_exception_goes_uncaught exact_types bare_host broken_service
           absent_no_id ∅ VNone).
  - right. right. reflexivity.
  - vm_compute. apply list_elem_of_here.
  - reflexivity.
Defined.

(** X2: whatever the task arguments, the framework's coercions, the host
    and the service, [main] makes either no remote call or the single call
    [delete_dash(DashId=None)]: it never describes, never creates, and
    never deletes a dash by its id. *)
Theorem main_only_remote_call_is_delete fw host client (args : gmap string value) :
  calls (trace (main fw host client args)) = [] ∨
  calls (trace (main fw host client args)) = [DeleteDash VNone].
Proof.
  destruct (validate fw argument_spec mutually_exclusive args) as [errors|p] eqn:Hv.
  { left. by rewrite (main_rejected _ _ _ _ _ Hv). }
  destruct (main_params_undeclared _ _ _ Hv) as [Hid _].
  rewrite (main_accepted _ _ _ _ _ Hv).
  destruct (eq_str (params_get p "state") "present").
  - left.
    destruct (truthy (params_get p "dash_config")); [done|].
    destruct (truthy (params_get p "config_file")); [|done].
    by destruct (load_json_file host _).
  - right. rewrite remove_dash_run, Hid.
    by destruct (respond client (DeleteDash VNone)).
Qed.

(** X3: [create_dash] makes its remote calls in one order: nothing, or the
    describe of [dash_id] alone, or that describe followed by one create
    with [name] from the parameters and the configuration it was given,
    unchanged. It never deletes, never creates without describing first and
    never creates twice. *)
Theorem create_dash_call_order client (params : gmap string value) config :
  calls (trace (create_dash client params config)) = [] ∨
  calls (trace (create_dash client params config))
  = [DescribeDashes (VList [params_get params "dash_id"])] ∨
  calls (trace (create_dash client params config))
  = [DescribeDashes (VList [params_get params "dash_id"]);
     CreateDash (params_get params "name") config].
Proof.
  rewrite create_dash_run.
  destruct (truthy (params_get params "dash_id")); [|by left].
  right.
  destruct (respond client (DescribeDashes _)) as [e|found]; [by left|].
  destruct (truthy found); [by left|].
  right. by destruct (respond client (CreateDash _ _)).
Qed.

(** X9: when the delete call of an accepted invocation raises an SDK
    error, the failure report is built from the template
    ["Failed to delete dash ID {}"] filled with [None]: the message never
    names a dash. *)
Theorem delete_failure_names_no_dash fw host client
    (args params : gmap string value) e :
  validate fw argument_spec mutually_exclusive args = inr params →
  params_get params "state" = VStr "absent" →
  client_delete_dash client VNone = inl e →
  is_sdk_error e = true →
  main fw host client args
  = ([(DeleteDash VNone, inl e)],
     inl (FailJsonAws e (Format "Failed to delete dash ID {}" VNone))).
Proof.
  intros Hv Hstate Hdelete He.
  destruct (main_params_undeclared _ _ _ Hv) as [Hid _].
  rewrite (main_accepted _ _ _ _ _ Hv), Hstate.
  replace (eq_str (VStr "absent") "present") with false by done.
  rewrite remove_dash_run, Hid. cbn [respond]. rewrite Hdelete.
  unfold sdk_failure. by rewrite He.
Qed.

Lemma delete_failure_names_no_dash_witness :
  main exact_types bare_host failing_service absent_no_id
  = ([(DeleteDash VNone, inl access_denied)],
     inl (FailJsonAws access_denied (Format "Failed to delete dash ID {}" VNone))).
Proof.
  refine (delete_failure_names_no_dash exact_types bare_host failing_service
            absent_no_id
            (<["wait_timeout" := VInt 320]> (<["wait" := VBool false]>
              (<["tags" := VNone]> (<["config_file" := VNone]>
                (<["dash_config" := VNone]> absent_no_id)))))
            access_denied _ _ _ _); by vm_compute.
Defined.

(** ** Further properties of the arguments *)

(** X4: [name] is required. An invocation that does not supply it is
    refused with a missing-argument error that lists [name], and no remote
    call is made, whatever the state asked for. *)
Theorem name_is_required fw host client (args : gmap string value) :
  args !! "name" = None →
  ∃ errors missing,
    main fw host client args = ([], inl (InvalidArguments errors)) ∧
    MissingRequired missing ∈ errors ∧ "name" ∈ missing.
Proof.
  intros Hname.
  assert (Hp : set_defaults argument_spec args !! "name" = None).
  { rewrite (set_defaults_lookup argument_spec args "name"
               {| opt_required := true; opt_type := TStr;
                  opt_default := None; opt_choices := None |}
               argument_spec_NoDup); [by rewrite Hname|apply list_elem_of_here]. }
  assert (Hreq : check_required_arguments argument_spec
                   (set_defaults argument_spec args) = [MissingRequired ["name"]]).
  { unfold check_required_arguments.
    replace (map fst (filter (λ ks, opt_required ks.2 = true) argument_spec))
      with ["name"] by (by vm_compute).
    rewrite filter_cons_True; [done|].
    intros [v Hv]. by rewrite Hp in Hv. }
  destruct (validate_error fw argument_spec mutually_exclusive args
              (MissingRequired ["name"])) as (errors & Hv & Hin).
  { rewrite Hreq, !elem_of_app. right. left. apply list_elem_of_here. }
  exists errors, ["name"].
  split; [by apply main_rejected|]. split; [done|apply list_elem_of_here].
Qed.

Lemma name_is_required_witness :
  ∃ errors missing,
    main exact_types bare_host empty_service {[ "state" := VStr "absent" ]}
    = ([], inl (InvalidArguments errors)) ∧
    MissingRequired missing ∈ errors ∧ "name" ∈ missing.
Proof.
  apply (name_is_required exact_types bare_host empty_service
           {[ "state" := VStr "absent" ]}).
  by vm_compute.
Defined.

(** X5: [state] takes the two choices only. An invocation whose [state]
    the framework reads as a string other than [present] and [absent] is
    refused with a choice error on [state], and no remote call is made. *)
Theorem state_outside_choices_rejected fw host client (args : gmap string value) v s :
  args !! "state" = Some v →
  check_type fw TStr v = Some (VStr s) →
  s ≠ "present" → s ≠ "absent" →
  ∃ errors,
    main fw host client args = ([], inl (InvalidArguments errors)) ∧
    BadChoice "state" ∈ errors.
Proof.
  intros Hstate Hcoerce Hpresent Habsent.
  set (spec_state := {| opt_required := false; opt_type := TStr;
                        opt_default := Some (VStr "present");
                        opt_choices := Some ["present"; "absent"] |}).
  assert (Hspec : ("state", spec_state) ∈ argument_spec) by (do 3 right; left).
  pose proof (coerce_fold_lookup fw argument_spec []
                (set_defaults argument_spec args) "state" spec_state
                argument_spec_NoDup Hspec) as Hlook.
  rewrite (set_defaults_lookup _ _ _ _ argument_spec_NoDup Hspec), Hstate in Hlook.
  replace (is_none v && negb (opt_required spec_state)
           && negb (bool_decide (is_Some (opt_default spec_state))))
    with false in Hlook by (by rewrite andb_false_r).
  cbn [opt_type spec_state] in Hlook. rewrite Hcoerce in Hlook.
  rewrite <- validate_argument_types_fold in Hlook.
  destruct (validate_error fw argument_spec mutually_exclusive args
              (BadChoice "state")) as (errors & Hv & Hin).
  { rewrite !elem_of_app. do 3 right. left.
    apply list_elem_of_In, in_flat_map.
    exists ("state", spec_state). split; [by apply list_elem_of_In|].
    cbn [fst snd opt_choices spec_state]. rewrite Hlook.
    cbn [in_choices]. rewrite bool_decide_eq_false_2; [by left|].
    intros Hin. members; done. }
  exists errors. split; [by apply main_rejected|done].
Qed.

Lemma state_outside_choices_rejected_witness :
  ∃ errors,
    main exact_types bare_host empty_service unknown_state
    = ([], inl (InvalidArguments errors)) ∧
    BadChoice "state" ∈ errors.
Proof.
  apply (state_outside_choices_rejected exact_types bare_host empty_service
           unknown_state (VStr "gone") "gone"); by vm_compute.
Defined.

(** X6: [state] defaults to [present]. Under a framework that leaves the
    text [present] as it is, an accepted invocation that does not supply
    [state] is handled as a creation: [module.params] holds
    [state = 'present'] and the run makes no remote call, so omitting
    [state] never deletes anything. *)
Theorem omitted_state_means_present fw host client (args params : gmap string value) :
  check_type fw TStr (VStr "present") = Some (VStr "present") →
  validate fw argument_spec mutually_exclusive args = inr params →
  args !! "state" = None →
  params_get params "state" = VStr "present" ∧
  calls (trace (main fw host client args)) = [].
Proof.
  intros Hcoerce Hv Hstate.
  set (spec_state := {| opt_required := false; opt_type := TStr;
                        opt_default := Some (VStr "present");
                        opt_choices := Some ["present"; "absent"] |}).
  assert (Hspec : ("state", spec_state) ∈ argument_spec) by (do 3 right; left).
  pose proof (validate_lookup _ _ _ _ _ _ _ argument_spec_NoDup Hspec Hv) as Hlook.
  rewrite Hstate in Hlook. cbn in Hlook.
  destruct Hlook as (v' & Hv' & Hp).
  rewrite Hcoerce in Hv'. injection Hv' as <-.
  assert (Hget : params_get params "state" = VStr "present")
    by (unfold params_get; by rewrite Hp).
  split; [done|].
  rewrite (main_accepted _ _ _ _ _ Hv), Hget.
  replace (eq_str (VStr "present") "present") with true by done.
  destruct (truthy (params_get params "dash_config")); [done|].
  destruct (truthy (params_get params "config_file")); [|done].
  by destruct (load_json_file host _).
Qed.

Lemma omitted_state_means_present_witness :
  only_name !! "state" = None ∧
  params_get (<["wait_timeout" := VInt 320]> (<["wait" := VBool false]>
               (<["tags" := VNone]> (<["state" := VStr "present"]>
                 (<["config_file" := VNone]> (<["dash_config" := VNone]> only_name))))))
             "state" = VStr "present" ∧
  calls (trace (main exact_types bare_host empty_service only_name)) = [].
Proof.
  split; [by vm_compute|].
  refine (omitted_state_means_present exact_types bare_host empty_service only_name
            _ _ _ _); by vm_compute.
Defined.

(** X7: of its options, [main] acts on [state], [dash_config] and
    [config_file] only. Two accepted invocations whose parameters agree on
    these three run alike, call for call and with the same end, whatever
    their [name], [tags], [wait] and [wait_timeout]. *)
Theorem unread_options_have_no_effect fw host client
    (args args' params params' : gmap string value) :
  validate fw argument_spec mutually_exclusive args = inr params →
  validate fw argument_spec mutually_exclusive args' = inr params' →
  params_get params "state" = params_get params' "state" →
  params_get params "dash_config" = params_get params' "dash_config" →
  params_get params "config_file" = params_get params' "config_file" →
  main fw host client args = main fw host client args'.
Proof.
  intros Hv Hv' Hstate Hconfig Hfile.
  destruct (main_params_undeclared _ _ _ Hv) as [Hid _].
  destruct (main_params_undeclared _ _ _ Hv') as [Hid' _].
  rewrite (main_accepted _ _ _ _ _ Hv), (main_accepted _ _ _ _ _ Hv').
  rewrite Hstate, Hconfig, Hfile.
  destruct (eq_str (params_get params' "state") "present"); [done|].
  by rewrite !remove_dash_run, Hid, Hid'.
Qed.

Lemma unread_options_have_no_effect_witness :
  params_get decorated "name" = VStr "other" ∧
  main exact_types bare_host empty_service only_name
  = main exact_types bare_host empty_service decorated.
Proof.
  split; [by vm_compute|].
  refine (unread_options_have_no_effect exact_types bare_host empty_service
            only_name decorated
            (<["wait_timeout" := VInt 320]> (<["wait" := VBool false]>
              (<["tags" := VNone]> (<["state" := VStr "present"]>
                (<["config_file" := VNone]> (<["dash_config" := VNone]> only_name))))))
            (<["wait_timeout" := VInt 320]> (<["state" := VStr "present"]>
              (<["config_file" := VNone]> (<["dash_config" := VNone]> decorated))))
            _ _ _ _ _); by vm_compute.
Defined.

(** X8: a configuration file that cannot be loaded is not reported by its
    own message. With [state: present], no [dash_config] and a
    [config_file], an exception from opening or parsing the file that has
    no [response] attribute (any [OSError] or [JSONDecodeError]) sends the
    run into the handler, which reads [e.response] before [fail_json] is
    called: the run ends with an uncaught [AttributeError], and no remote
    call is made. *)
Theorem config_file_failure_is_not_reported fw host client
    (args params : gmap string value) e :
  validate fw argument_spec mutually_exclusive args = inr params →
  params_get params "state" = VStr "present" →
  truthy (params_get params "dash_config") = false →
  truthy (params_get params "config_file") = true →
  load_json_file host (params_get params "config_file") = inl e →
  exc_response e = None →
  main fw host client args = ([], inl (Uncaught AttributeError)).
Proof.
  intros Hv Hstate Hconfig Hfile Hload Hresponse.
  rewrite (main_accepted _ _ _ _ _ Hv), Hstate, Hconfig, Hfile, Hload.
  unfold config_failure. by rewrite Hresponse.
Qed.

Lemma config_file_failure_is_not_reported_witness :
  load_json_file bare_host (VStr "/tmp/dash.json")
  = inl (Exception OSError "No such file or directory" None) ∧
  main exact_types bare_host empty_service file_config
  = ([], inl (Uncaught AttributeError)).
Proof.
  split; [reflexivity|].
  refine (config_file_failure_is_not_reported exact_types bare_host empty_service
            file_config
            (<["wait_timeout" := VInt 320]> (<["wait" := VBool false]>
              (<["tags" := VNone]> (<["state" := VStr "present"]>
                (<["dash_config" := VNone]> file_config)))))
            (Exception OSError "No such file or directory" None) _ _ _ _ _ _);
    by vm_compute.
Defined.

(** X10: no run ends in [exit_json]. Each of the three calls of
    [exit_json] in the module (lines 130, 139 and 147) passes [changed]
    positionally, so every run of [create_dash], [remove_dash] and [main]
    ends in an uncaught exception, a failure report or a refusal of the
    arguments: the module never exits with a result. *)
Theorem no_run_ends_in_exit_json fw host client
    (args params : gmap string value) config (run : M unit) :
  run = create_dash client params config ∨
  run = remove_dash client params ∨
  run = main fw host client args →
  ∃ t o, run = (t, inl o) ∧ exits o = false.
Proof.
  assert (Hsdk : ∀ e msg, exits (sdk_failure e msg) = false).
  { intros e msg. unfold sdk_failure. by destruct (is_sdk_error e). }
  assert (Hremove : ∀ p, ∃ t o, remove_dash client p = (t, inl o) ∧ exits o = false).
  { intros p. rewrite remove_dash_run.
    destruct (respond client (DeleteDash _)) as [e|r]; by eexists _, _. }
  intros [-> | [-> | ->]].
  - rewrite create_dash_run.
    destruct (truthy (params_get params "dash_id")); [|by eexists _, _].
    destruct (respond client (DescribeDashes _)) as [e|found]; [by eexists _, _|].
    destruct (truthy found); [by eexists _, _|].
    destruct (respond client (CreateDash _ _)) as [e|d']; by eexists _, _.
  - apply Hremove.
  - destruct (validate fw argument_spec mutually_exclusive args) as [errors|p] eqn:Hv.
    { rewrite (main_rejected _ _ _ _ _ Hv). by eexists _, _. }
    rewrite (main_accepted _ _ _ _ _ Hv).
    destruct (eq_str (params_get p "state") "present"); [|apply Hremove].
    destruct (truthy (params_get p "dash_config")); [by eexists _, _|].
    destruct (truthy (params_get p "config_file")); [|by eexists _, _].
    destruct (load_json_file host _) as [e|doc]; [|by eexists _, _].
    eexists _, _. split; [done|]. unfold config_failure.
    destruct (exc_response e) as [[| | | | |items]|]; try done.
    by destruct (binds_twice _).
Qed.

Lemma no_run_ends_in_exit_json_witness :
  create_dash full_service params_with_id (VDict [])
  = ([(DescribeDashes (VList [VStr "dash-1"]), inr a_dash)],
     inl (Uncaught TypeError)) ∧
  ∃ t o, create_dash full_service params_with_id (VDict []) = (t, inl o)
         ∧ exits o = false.
Proof.
  split; [by vm_compute|].
  apply (no_run_ends_in_exit_json exact_types bare_host full_service
           only_name params_with_id (VDict [])).
  left. reflexivity.
Defined.
